(** * prometheus-switchbot-exporter: classification, payload decoding and
      the scan loop

    A shallow embedding of [prometheus_switchbot_exporter.py].  Python
    values are modelled as follows.

    - [str] is [string]: one [ascii] per character, which covers every
      code point below 256 and in particular all hexadecimal text that the
      BLE layer hands over as scan-field values;
    - [int] is [Z], [float] is the primitive binary64 [float];
    - a [dict] with string keys is a [gmap];
    - raising is an explicit [Raise] result, and the module-level objects
      the program mutates (the logging stream and the four gauges) are the
      fields of a [world] that is passed through every effectful call. *)

From Stdlib Require Import ZArith String Ascii List Lia Bool.
From Stdlib Require Import Floats Uint63.
From stdpp Require Import base option list gmap strings pretty.

Local Open Scope string_scope.
Local Open Scope Z_scope.

(** ** Exceptions *)

Module Py.

(** The exception classes that can travel through the program: the two
    builtin ones raised while decoding, and the transport errors of the
    BLE library ([BTLEDisconnectError] and its siblings under
    [BTLEException]). *)
Inductive exn : Type :=
| ValueError (msg : string)
| AttributeError (msg : string)
| BTLEDisconnectError (msg : string)
| BTLEManagementError (msg : string)
| BTLEInternalError (msg : string)
| BTLEGattError (msg : string).

Inductive result (A : Type) : Type :=
| Ok (a : A)
| Raise (e : exn).
Arguments Ok {A} a.
Arguments Raise {A} e.

#[export] Instance result_ret : MRet result := λ A a, Ok a.

#[export] Instance result_bind : MBind result := λ A B k r,
  match r with
  | Ok a => k a
  | Raise e => Raise e
  end.

(** *** Strings *)

Definition code (c : ascii) : Z := Z.of_N (N_of_ascii c).

(** [s[a:b]] for constant bounds [0 <= a <= b]: slicing clips at the end
    of the string and never raises. *)
Definition slice (a b : nat) (s : string) : string :=
  String.substring a (b - a) s.

(** [s.startswith(p)] *)
Definition startswith (s p : string) : bool := String.prefix p s.

(** [s.encode("utf-8")] on characters below 256: one byte below 128,
    two bytes (both at least 128) from there on. *)
Definition encode_char (c : ascii) : list ascii :=
  let n := code c in
  if n <? 128 then [c]
  else [ascii_of_N (Z.to_N (Z.lor 192 (Z.shiftr n 6)));
        ascii_of_N (Z.to_N (Z.lor 128 (Z.land n 63)))].

Definition encode_utf8 (s : string) : list ascii :=
  flat_map encode_char (list_ascii_of_string s).

(** *** [int(x, 16)]

    The C routine behind [int(text, base)], specialised to base 16:
    blanks are skipped on both sides, one sign is accepted, then an
    optional [0x]/[0X] prefix, then hexadecimal digits that may be
    separated by single underscores.  Anything else is a [ValueError]. *)

Definition Py_ISSPACE (c : ascii) : bool :=
  let n := code c in (n =? 32) || ((9 <=? n) && (n <=? 13)).

Definition digit_value (c : ascii) : option Z :=
  let n := code c in
  if (48 <=? n) && (n <=? 57) then Some (n - 48)
  else if (97 <=? n) && (n <=? 102) then Some (n - 87)
  else if (65 <=? n) && (n <=? 70) then Some (n - 55)
  else None.

Definition is_underscore (c : ascii) : bool := code c =? 95.

(** Reads the longest run of digits and underscores.  [prev_us] tells
    that the previous character was an underscore, [seen] that a digit
    has been read; the result is the value and the unread rest. *)
Fixpoint scan_digits (cs : list ascii) (prev_us seen : bool) (acc : Z)
  : option (Z * list ascii) :=
  match cs with
  | [] => if prev_us then None else if seen then Some (acc, []) else None
  | c :: r =>
      if is_underscore c then
        if prev_us then None else scan_digits r true seen acc
      else
        match digit_value c with
        | Some d => scan_digits r false true (16 * acc + d)
        | None =>
            if prev_us then None
            else if seen then Some (acc, cs) else None
        end
  end.

Definition skip_sign (cs : list ascii) : bool * list ascii :=
  match cs with
  | c :: r =>
      if code c =? 43 then (false, r)
      else if code c =? 45 then (true, r)
      else (false, cs)
  | [] => (false, [])
  end.

Definition skip_prefix (cs : list ascii) : list ascii :=
  match cs with
  | z :: x :: r =>
      if (code z =? 48) && ((code x =? 120) || (code x =? 88)) then
        match r with
        | u :: r' => if is_underscore u then r' else r
        | [] => r
        end
      else cs
  | _ => cs
  end.

Fixpoint skip_spaces (cs : list ascii) : list ascii :=
  match cs with
  | c :: r => if Py_ISSPACE c then skip_spaces r else cs
  | [] => []
  end.

Definition PyLong_FromString (cs : list ascii) : option Z :=
  let '(neg, cs1) := skip_sign (skip_spaces cs) in
  let cs2 := skip_prefix cs1 in
  match cs2 with
  | c :: _ => if is_underscore c then None else
      match scan_digits cs2 false false 0 with
      | Some (v, rest) =>
          match skip_spaces rest with
          | [] => Some (if neg then - v else v)
          | _ :: _ => None
          end
      | None => None
      end
  | [] => None
  end.

(** On a [str] the two blanks of the range 128..255 (U+0085 and U+00A0)
    are first turned into plain spaces; the separators 0x1C..0x1F are
    left alone, so they are not blanks for [int]. *)
Definition to_ascii_space (c : ascii) : ascii :=
  if (code c =? 133) || (code c =? 160) then " "%char else c.

Definition invalid_literal : exn :=
  ValueError "invalid literal for int() with base 16".

Definition lift_int (o : option Z) : result Z :=
  match o with
  | Some v => Ok v
  | None => Raise invalid_literal
  end.

(** [int(s, 16)] for [s : str] *)
Definition int_str16 (s : string) : result Z :=
  lift_int (PyLong_FromString (map to_ascii_space (list_ascii_of_string s))).

(** [int(b, 16)] for [b : bytes] *)
Definition int_bytes16 (b : list ascii) : result Z :=
  lift_int (PyLong_FromString b).

(** *** [float] *)

(** [float(z)], exact below 2^53 and correctly rounded below 2^63, which
    is far beyond every integer this program converts. *)
Definition float_of_int (z : Z) : float :=
  match z with
  | Z0 => PrimFloat.of_uint63 0%uint63
  | Zpos _ => PrimFloat.of_uint63 (Uint63.of_Z z)
  | Zneg _ => PrimFloat.opp (PrimFloat.of_uint63 (Uint63.of_Z (- z)))
  end.

End Py.

Export Py.

(** ** Module-level constants *)

Definition SWITCHBOT_MANUFACTURER_ID : string := "5900".
Definition SWITCHBOT_SERVICE_ID : string :=
  "cba20d00-224d-11e6-9fb8-0002a5d5c51b".

(** U+00FC, the one character of the name table above 127. *)
Definition u_umlaut : string := String (ascii_of_N 252) "".

Definition DEVICE_NAME_MAP : gmap string string :=
  list_to_map
    [ ("f2:0c:69:f4:56:af", "Haust" +:+ u_umlaut +:+ "r");
      ("ee:ed:06:15:e1:fc", "Terasse");
      ("f2:8d:34:be:e8:e6", "Wohnzimmer");
      ("e3:06:1c:69:f5:67", "B" +:+ u_umlaut +:+ "ro");
      ("ce:e7:0b:2e:1a:fe", "Bad") ].

(** ** Data *)

Record Measurement : Type := mkMeasurement {
  battery : Z;
  temperature : float;
  humidity : Z
}.

(** What the program reads of a [btle.ScanEntry].  [getScanData] is the
    list of (type code, description, text value) triples the method of
    that name returns, one per entry of the dictionary [device.scanData];
    so [device.scanData] is empty exactly when this list is. *)
Record ScanEntry : Type := mkScanEntry {
  addr : string;
  rssi : Z;
  connectable : bool;
  getScanData : list (Z * string * string)
}.

(** ** Logging and gauges: the state the program mutates *)

Definition DEBUG : Z := 10.
Definition INFO : Z := 20.

(** An argument handed to a logging call.  [AJsonScanData] and
    [AJsonMeasurement] stand for the text [json.dumps] renders of a scan
    dictionary and of [asdict(measurement)]. *)
Inductive log_arg : Type :=
| AStr (s : string)
| AInt (z : Z)
| AExn (e : exn)
| AJsonScanData (d : gmap string string)
| AJsonMeasurement (m : Measurement).

Record LogRecord : Type := mkLogRecord {
  levelno : Z;
  msg : string;
  args : list log_arg
}.

(** A gauge keeps the last value set per label pair (device, name). *)
Record world : Type := mkWorld {
  log_level : Z;
  log : list LogRecord;
  gauge_rssi : gmap (string * string) float;
  gauge_battery : gmap (string * string) float;
  gauge_humidity : gmap (string * string) float;
  gauge_temperature : gmap (string * string) float
}.

Definition with_log (w : world) (l : list LogRecord) : world :=
  mkWorld (log_level w) l (gauge_rssi w) (gauge_battery w)
          (gauge_humidity w) (gauge_temperature w).

(** The gauges of a world, the part a scraper can see. *)
Definition metrics (w : world)
  : gmap (string * string) float * gmap (string * string) float *
    gmap (string * string) float * gmap (string * string) float :=
  (gauge_rssi w, gauge_battery w, gauge_humidity w, gauge_temperature w).

Module logging.

(** A record below the configured level is dropped, any other is
    appended to the stream. *)
Definition emit (level : Z) (m : string) (a : list log_arg) (w : world)
  : world :=
  if log_level w <=? level then
    with_log w (log w ++ [mkLogRecord level m a])%list
  else w.

Definition debug := emit DEBUG.
Definition info := emit INFO.

End logging.

(** [Gauge.labels(device=..., name=...).set(value)]: the value is stored
    as a float, replacing what the label pair held. *)
Definition gauge_set (g : gmap (string * string) float)
    (device name : string) (value : float) : gmap (string * string) float :=
  <[(device, name) := value]> g.

(** ** Classification *)

Definition bool_str (b : bool) : string := if b then "True" else "False".

Definition device_str (device : ScanEntry) : string :=
  "Device (addr=" +:+ addr device
  +:+ ",name=" +:+ default "None" (DEVICE_NAME_MAP !! addr device)
  +:+ ",rssi=" +:+ pretty (rssi device)
  +:+ ",connectable=" +:+ bool_str (connectable device) +:+ ")".

(** The dictionary comprehension: a later triple overwrites an earlier
    one with the same description. *)
Definition get_scan_data (device : ScanEntry) : gmap string string :=
  foldl (λ m t, <[t.1.2 := t.2]> m) ∅ (getScanData device).

Definition is_switchbot_thermometer (device : ScanEntry) (w : world)
  : bool * world :=
  let ds := device_str device in
  match getScanData device with
  | [] => (false, logging.debug "%s exposes no data" [AStr ds] w)
  | _ :: _ =>
      let scan_data := get_scan_data device in
      let w1 := logging.debug "%s scan data: %s"
                  [AStr ds; AJsonScanData scan_data] w in
      if negb (startswith (default "" (scan_data !! "Manufacturer"))
                          SWITCHBOT_MANUFACTURER_ID) then
        (false, logging.debug "%s manufacturer is not Swichbot" [AStr ds] w1)
      else if negb (bool_decide (scan_data !! "Complete 128b Services"
                                 = Some SWITCHBOT_SERVICE_ID)) then
        (false, logging.debug "%s service ID is not Swichbot Thermometer"
                  [AStr ds] w1)
      else
        (true, logging.info "%s is Switchbot thermometer" [AStr ds] w1)
  end.

(** ** Decoding *)

(** The [ValueError] raised on a missing frame marker. *)
Definition MalformedPayload (service_data : string) : exn :=
  ValueError ("Malformed service data '" +:+ service_data +:+ "'").

(** Calling [.startswith] on [None]. *)
Definition NoneType_startswith : exn :=
  AttributeError "'NoneType' object has no attribute 'startswith'".

(** The body of [parse_device_data] from the frame-marker test on, as a
    function of the service-data text. *)
Definition decode (service_data : string) : result Measurement :=
  if negb (startswith service_data "000d") then
    Raise (MalformedPayload service_data)
  else
    byte2 ← int_str16 (slice 8 10 service_data);
    let battery := Z.land byte2 127 in
    nibble ← int_bytes16 (encode_utf8 (slice 11 12 service_data));
    let temperature_fractional := (float_of_int nibble / 10)%float in
    raw ← int_bytes16 (encode_utf8 (slice 12 14 service_data));
    let '(temperature_integral, temperature_fractional) :=
      if raw <? 128 then
        (raw * -1, (temperature_fractional * float_of_int (-1))%float)
      else (raw - 128, temperature_fractional) in
    let temperature :=
      (float_of_int temperature_integral + temperature_fractional)%float in
    h ← int_bytes16 (encode_utf8 (slice 14 16 service_data));
    let humidity := h `mod` 128 in
    mret (mkMeasurement battery temperature humidity).

Definition parse_device_data (device : ScanEntry) : result Measurement :=
  match get_scan_data device !! "16b Service Data" with
  | None => Raise NoneType_startswith
  | Some service_data => decode service_data
  end.

(** ** Publication and the discovery callback *)

Definition publish_measurement (device : ScanEntry) (measurement : Measurement)
    (w : world) : world :=
  let w1 := logging.info "Published: %s" [AJsonMeasurement measurement] w in
  let name := default (addr device) (DEVICE_NAME_MAP !! addr device) in
  mkWorld (log_level w1) (log w1)
    (gauge_set (gauge_rssi w1) (addr device) name
               (float_of_int (rssi device)))
    (gauge_set (gauge_battery w1) (addr device) name
               (float_of_int (battery measurement)))
    (gauge_set (gauge_humidity w1) (addr device) name
               (float_of_int (humidity measurement)))
    (gauge_set (gauge_temperature w1) (addr device) name
               (temperature measurement)).

(** [SwitchbotDelegate.handleDiscovery]: the two flags are ignored, and an
    exception of [parse_device_data] leaves through the caller. *)
Definition handleDiscovery (device : ScanEntry)
    (is_new_device is_new_data : bool) (w : world) : result unit * world :=
  let '(target, w1) := is_switchbot_thermometer device w in
  if target then
    match parse_device_data device with
    | Ok measurement => (Ok (), publish_measurement device measurement w1)
    | Raise e => (Raise e, w1)
    end
  else (Ok (), w1).

(** ** The scan loop *)

(** One advertisement as the scanner delivers it to the delegate. *)
Definition advertisement : Type := ScanEntry * bool * bool.

(** What the transport does during one call [scanner.scan(60)]: it
    delivers [events] in order, and then either the window elapses
    ([ending = None]) or the transport raises ([ending = Some e]). *)
Record window : Type := mkWindow {
  events : list advertisement;
  ending : option exn
}.

(** The scanner calls the delegate once per advertisement and does not
    catch what the delegate raises. *)
Fixpoint deliver (evs : list advertisement) (w : world)
  : result unit * world :=
  match evs with
  | [] => (Ok (), w)
  | (device, is_new_device, is_new_data) :: rest =>
      match handleDiscovery device is_new_device is_new_data w with
      | (Ok _, w1) => deliver rest w1
      | (Raise e, w1) => (Raise e, w1)
      end
  end.

Definition scan (win : window) (w : world) : result unit * world :=
  match deliver (events win) w with
  | (Ok _, w1) =>
      match ending win with
      | None => (Ok (), w1)
      | Some e => (Raise e, w1)
      end
  | (Raise e, w1) => (Raise e, w1)
  end.

(** [except btle.BTLEDisconnectError] *)
Definition is_BTLEDisconnectError (e : exn) : bool :=
  match e with
  | BTLEDisconnectError _ => true
  | _ => false
  end.

(** Where a run of the loop stands after the transport has played a
    finite list of windows: still in [while True], or left by an
    exception nobody caught. *)
Inductive status : Type :=
| Scanning
| Exited (e : exn).

(** [while True: try: scanner.scan(60) except BTLEDisconnectError ...],
    run against the windows the transport plays. *)
Fixpoint scan_loop (wins : list window) (w : world) : status * world :=
  match wins with
  | [] => (Scanning, w)
  | win :: rest =>
      match scan win w with
      | (Ok _, w1) => scan_loop rest w1
      | (Raise e, w1) =>
          if is_BTLEDisconnectError e then
            scan_loop rest (logging.debug "Disconnection error: %s" [AExn e] w1)
          else (Exited e, w1)
      end
  end.

Definition configure_logging (verbose quiet : Z) (w : world) : world :=
  let level := INFO + (quiet - verbose) * 10 in
  mkWorld level (log w) (gauge_rssi w) (gauge_battery w)
          (gauge_humidity w) (gauge_temperature w).

(** The state of a fresh process: nothing logged, no gauge sample. *)
Definition initial_world : world := mkWorld 30 [] ∅ ∅ ∅ ∅.

Definition main (metrics_port verbose quiet : Z) (wins : list window)
  : status * world :=
  let w := configure_logging verbose quiet initial_world in
  let w := logging.debug
    ("Started Prometheus exporter on ':%s' "
     +:+ "scrapping Swichbot thermometers nearby")
    [AInt metrics_port] w in
  scan_loop wins w.

(** ** Auxiliary definitions for the proofs *)

(** Every character. *)
Definition all_ascii : list ascii := map ascii_of_nat (seq 0 256).

(** [P] holds of every string of at most two characters. *)
Definition for_short (P : string → bool) : bool :=
  P "" &&
  forallb (λ a, P (String a "") &&
                forallb (λ b, P (String a (String b ""))) all_ascii)
          all_ascii.

(** One encoded character spells a value 0..15, two spell one between
    -15 (a sign and a digit) and 255. *)
Definition in_range (t : string) : bool :=
  match int_bytes16 (encode_utf8 t) with
  | Ok v => if (String.length t <=? 1)%nat then (0 <=? v) && (v <=? 15)
            else (-15 <=? v) && (v <=? 255)
  | Raise _ => true
  end.

(** The value lines 90-98 compute from the raw integral byte and the
    fractional nibble. *)
Definition temperature_of (raw nibble : Z) : float :=
  if raw <? 128 then
    (float_of_int (raw * -1)
     + float_of_int nibble / 10 * float_of_int (-1))%float
  else (float_of_int (raw - 128) + float_of_int nibble / 10)%float.

(** The same value as the spec words it: [-(I + F)] below 128 and
    [(I - 128) + F] from 128 on, with [F] the nibble divided by ten. *)
Definition sign_rule (raw nibble : Z) : float :=
  let F := (float_of_int nibble / 10)%float in
  if raw <? 128 then (- (float_of_int raw + F))%float
  else (float_of_int (raw - 128) + F)%float.

(** [temperature_of] and [sign_rule] are equal IEEE numbers on every pair
    of integers that the two slices can spell. *)
Definition sign_rule_agrees : bool :=
  forallb (λ raw,
    forallb (λ nibble,
      PrimFloat.eqb (temperature_of raw nibble) (sign_rule raw nibble))
      (seqZ 0 16))
    (seqZ (-15) 271).

(** Two hexadecimal digits read as one byte, and one digit as a nibble:
    the plain reading of a payload field, against which the literals
    [int] accepts are compared. *)
Definition hex_byte (t : string) : option Z :=
  match t with
  | String a (String b "") =>
      match digit_value a, digit_value b with
      | Some x, Some y => Some (16 * x + y)
      | _, _ => None
      end
  | _ => None
  end.

Definition hex_nibble (t : string) : option Z :=
  match t with
  | String a "" => digit_value a
  | _ => None
  end.

Definition is_Ok_of (r : result Z) (v : Z) : bool :=
  match r with
  | Ok v' => v' =? v
  | Raise _ => false
  end.

(** Both ways of calling [int] read a digit pair, or a single digit, as
    the plain reading does. *)
Definition hex_read_agrees (t : string) : bool :=
  match hex_byte t with
  | Some v =>
      is_Ok_of (int_str16 t) v && is_Ok_of (int_bytes16 (encode_utf8 t)) v
  | None => true
  end &&
  match hex_nibble t with
  | Some v => is_Ok_of (int_bytes16 (encode_utf8 t)) v
  | None => true
  end.

(** Every temperature the decoder can compute lies between -128.5 and
    128.5. *)
Definition temperature_bounded : bool :=
  forallb (λ raw,
    forallb (λ nibble,
      PrimFloat.leb (-128.5) (temperature_of raw nibble)
      && PrimFloat.leb (temperature_of raw nibble) 128.5)
      (seqZ 0 16))
    (seqZ (-15) 271).

(** The label pair under which a device is published. *)
Definition label (device : ScanEntry) : string * string :=
  (addr device, default (addr device) (DEVICE_NAME_MAP !! addr device)).

(** The four gauges carry the same label pairs. *)
Definition labels_agree (w : world) : Prop :=
  dom (gauge_battery w) = dom (gauge_rssi w) ∧
  dom (gauge_humidity w) = dom (gauge_rssi w) ∧
  dom (gauge_temperature w) = dom (gauge_rssi w).

(** Every label pair in use is the one its address determines. *)
Definition labels_canonical (w : world) : Prop :=
  ∀ a n : string,
    (a, n) ∈ dom (gauge_rssi w) → n = default a (DEVICE_NAME_MAP !! a).

(** The samples of the battery and humidity gauges are integers of
    0..127, those of the temperature gauge lie within 128.5 degrees of
    zero. *)
Definition samples_in_range (w : world) : Prop :=
  (∀ k v, gauge_battery w !! k = Some v →
          ∃ z : Z, 0 ≤ z ≤ 127 ∧ v = float_of_int z) ∧
  (∀ k v, gauge_humidity w !! k = Some v →
          ∃ z : Z, 0 ≤ z ≤ 127 ∧ v = float_of_int z) ∧
  (∀ k v, gauge_temperature w !! k = Some v →
          PrimFloat.leb (-128.5) v = true ∧ PrimFloat.leb v 128.5 = true).

(** Splits a goal about the classifier along its tests. *)
Ltac classify_cases device :=
  unfold is_switchbot_thermometer, logging.debug, logging.info;
  destruct (getScanData device); simpl;
  repeat match goal with
  | |- context [if ?b then _ else _] => destruct b; simpl
  end.

(** * Properties *)

(** ** Short slices and the integers they can spell *)

Lemma all_ascii_complete (c : ascii) : In c all_ascii.
Proof.
  rewrite <- (ascii_nat_embedding c).
  apply in_map, in_seq.
  pose proof (nat_ascii_bounded c). lia.
Qed.

Lemma for_short_spec (P : string → bool) (t : string) :
  for_short P = true → (String.length t ≤ 2)%nat → P t = true.
Proof.
  unfold for_short. rewrite andb_true_iff, forallb_forall.
  intros [H0 H] Hlen.
  destruct t as [|a [|b [|c t]]]; simpl in Hlen; try lia.
  - exact H0.
  - specialize (H a (all_ascii_complete a)).
    apply andb_true_iff in H. tauto.
  - specialize (H a (all_ascii_complete a)).
    apply andb_true_iff in H. destruct H as [_ H].
    rewrite forallb_forall in H. apply H, all_ascii_complete.
Qed.

Lemma length_substring (n m : nat) (s : string) :
  (String.length (String.substring n m s) ≤ m)%nat.
Proof.
  revert n m. induction s as [|c s IH]; intros [|n] [|m]; simpl; try lia.
  - specialize (IH 0%nat m). lia.
  - apply (IH n 0%nat).
  - apply (IH n (S m)).
Qed.

Lemma length_slice (a b : nat) (s : string) :
  (String.length (slice a b s) ≤ b - a)%nat.
Proof. apply length_substring. Qed.

Lemma in_range_short : for_short in_range = true.
Proof. vm_compute. reflexivity. Qed.

Lemma int_bytes16_nibble (t : string) (v : Z) :
  (String.length t ≤ 1)%nat → int_bytes16 (encode_utf8 t) = Ok v →
  0 ≤ v ≤ 15.
Proof.
  intros Hlen Hv.
  assert (Hr : in_range t = true)
    by (apply for_short_spec; [apply in_range_short | lia]).
  unfold in_range in Hr. rewrite Hv in Hr.
  apply Nat.leb_le in Hlen. rewrite Hlen in Hr. lia.
Qed.

Lemma int_bytes16_byte (t : string) (v : Z) :
  (String.length t ≤ 2)%nat → int_bytes16 (encode_utf8 t) = Ok v →
  -15 ≤ v ≤ 255.
Proof.
  intros Hlen Hv.
  assert (Hr : in_range t = true)
    by (apply for_short_spec; [apply in_range_short | lia]).
  unfold in_range in Hr. rewrite Hv in Hr.
  destruct (String.length t <=? 1)%nat; lia.
Qed.

(** ** The decoder, read backwards *)

Lemma decode_Ok (s : string) (m : Measurement) :
  decode s = Ok m →
  ∃ byte2 nibble raw h : Z,
    startswith s "000d" = true ∧
    int_str16 (slice 8 10 s) = Ok byte2 ∧
    int_bytes16 (encode_utf8 (slice 11 12 s)) = Ok nibble ∧
    int_bytes16 (encode_utf8 (slice 12 14 s)) = Ok raw ∧
    int_bytes16 (encode_utf8 (slice 14 16 s)) = Ok h ∧
    m = mkMeasurement (Z.land byte2 127) (temperature_of raw nibble)
                      (h `mod` 128).
Proof.
  intros H. unfold decode in H.
  destruct (startswith s "000d") eqn:Hp; simpl in H; [|discriminate].
  destruct (int_str16 (slice 8 10 s)) as [byte2|] eqn:Hb;
    simpl in H; [|discriminate].
  destruct (int_bytes16 (encode_utf8 (slice 11 12 s))) as [nibble|] eqn:Hn;
    simpl in H; [|discriminate].
  destruct (int_bytes16 (encode_utf8 (slice 12 14 s))) as [raw|] eqn:Hr;
    simpl in H; [|discriminate].
  exists byte2, nibble, raw.
  unfold temperature_of.
  destruct (raw <? 128);
    (destruct (int_bytes16 (encode_utf8 (slice 14 16 s))) as [h|] eqn:Hh;
     simpl in H; [|discriminate]);
    injection H as <-; exists h; done.
Qed.

Lemma sign_rule_agrees_true : sign_rule_agrees = true.
Proof. vm_compute. reflexivity. Qed.

Lemma temperature_of_sign_rule (raw nibble : Z) :
  -15 ≤ raw ≤ 255 → 0 ≤ nibble ≤ 15 →
  PrimFloat.eqb (temperature_of raw nibble) (sign_rule raw nibble) = true.
Proof.
  intros Hraw Hnib.
  pose proof sign_rule_agrees_true as H. unfold sign_rule_agrees in H.
  rewrite forallb_forall in H.
  assert (Hr : In raw (seqZ (-15) 271))
    by (apply list_elem_of_In, elem_of_seqZ; lia).
  specialize (H raw Hr). rewrite forallb_forall in H.
  apply H, list_elem_of_In, elem_of_seqZ. lia.
Qed.

(** ** Temperature *)

(** C1. Whenever [decode] accepts a service-data string, with [I] the
    integer spelled by characters 12..13 and [F] the nibble at character
    11 divided by ten, the temperature equals [-(I + F)] when [I < 128]
    and [(I - 128) + F] otherwise.  Integral byte 0x81 with nibble 3
    gives 1.3 (the binary64 number [0x1.4cccccccccccdp+0]), and integral
    byte 0x50 gives the negative reading [-(80 + F)], at most -80. *)
Theorem decode_temperature_rule (s : string) (m : Measurement) :
  decode s = Ok m →
  ∃ I n : Z,
    int_bytes16 (encode_utf8 (slice 12 14 s)) = Ok I ∧
    int_bytes16 (encode_utf8 (slice 11 12 s)) = Ok n ∧
    PrimFloat.eqb (temperature m)
      (let F := (float_of_int n / 10)%float in
       if I <? 128 then (- (float_of_int I + F))%float
       else (float_of_int (I - 128) + F)%float) = true ∧
    (I = 129 → n = 3 → temperature m = 0x1.4cccccccccccdp+0%float) ∧
    (I = 80 →
     temperature m = (- (80 + float_of_int n / 10))%float ∧
     PrimFloat.leb (temperature m) (-80)%float = true).
Proof.
  intros H.
  destruct (decode_Ok s m H) as (byte2 & n & I & h & _ & _ & Hn & HI & _ & ->).
  exists I, n. split; [exact HI|]. split; [exact Hn|].
  assert (Hnr : 0 ≤ n ≤ 15).
  { apply (int_bytes16_nibble (slice 11 12 s)); [|exact Hn].
    pose proof (length_slice 11 12 s). lia. }
  assert (HIr : -15 ≤ I ≤ 255).
  { apply (int_bytes16_byte (slice 12 14 s)); [|exact HI].
    pose proof (length_slice 12 14 s). lia. }
  simpl temperature. split; [|split].
  - exact (temperature_of_sign_rule I n HIr Hnr).
  - intros -> ->. reflexivity.
  - intros ->.
    assert (Hc : n = 0 ∨ n = 1 ∨ n = 2 ∨ n = 3 ∨ n = 4 ∨ n = 5 ∨
                 n = 6 ∨ n = 7 ∨ n = 8 ∨ n = 9 ∨ n = 10 ∨ n = 11 ∨
                 n = 12 ∨ n = 13 ∨ n = 14 ∨ n = 15) by lia.
    repeat (destruct Hc as [-> | Hc]; [split; reflexivity|]).
    subst n. split; reflexivity.
Qed.

Lemma decode_temperature_rule_witness :
  let s := "000d4c6400038132" in
  let m := mkMeasurement 0 0x1.4cccccccccccdp+0%float 50 in
  decode s = Ok m ∧
  ∃ I n : Z,
    int_bytes16 (encode_utf8 (slice 12 14 s)) = Ok I ∧
    int_bytes16 (encode_utf8 (slice 11 12 s)) = Ok n ∧
    PrimFloat.eqb (temperature m)
      (let F := (float_of_int n / 10)%float in
       if I <? 128 then (- (float_of_int I + F))%float
       else (float_of_int (I - 128) + F)%float) = true ∧
    (I = 129 → n = 3 → temperature m = 0x1.4cccccccccccdp+0%float) ∧
    (I = 80 →
     temperature m = (- (80 + float_of_int n / 10))%float ∧
     PrimFloat.leb (temperature m) (-80)%float = true).
Proof.
  intros s m. split.
  - vm_compute. reflexivity.
  - apply (decode_temperature_rule s m). vm_compute. reflexivity.
Defined.

(** Two readings from the spec's examples, evaluated: 0x81 with nibble 3,
    and 0x50 with nibble 3. *)
Example decode_0x81_nibble_3 :
  decode "000d4c6400038132" = Ok (mkMeasurement 0 0x1.4cccccccccccdp+0 50).
Proof. vm_compute. reflexivity. Qed.

Example decode_0x50_nibble_3 :
  decode "000d4c6400035032" = Ok (mkMeasurement 0 (- (80 + 3 / 10)) 50).
Proof. vm_compute. reflexivity. Qed.

(** ** The frame marker *)

Lemma MalformedPayload_not_invalid_literal (s : string) :
  MalformedPayload s ≠ invalid_literal.
Proof. unfold MalformedPayload, invalid_literal. simpl. discriminate. Qed.

(** C3. A string that does not start with ["000d"] makes [decode] raise
    the malformed-payload error, for the string itself and for every
    record carrying it as service data; no measurement comes out. *)
Theorem decode_rejects_missing_marker (s : string) :
  startswith s "000d" = false →
  decode s = Raise (MalformedPayload s) ∧
  (∀ m : Measurement, decode s ≠ Ok m) ∧
  (∀ device : ScanEntry,
     get_scan_data device !! "16b Service Data" = Some s →
     parse_device_data device = Raise (MalformedPayload s)).
Proof.
  intros Hp.
  assert (Hd : decode s = Raise (MalformedPayload s))
    by (unfold decode; rewrite Hp; reflexivity).
  split; [exact Hd|]. split.
  - intros m. rewrite Hd. discriminate.
  - intros device Hf. unfold parse_device_data. rewrite Hf. exact Hd.
Qed.

Lemma decode_rejects_missing_marker_witness :
  let s := "0d00540064039a3f" in
  startswith s "000d" = false ∧
  decode s = Raise (MalformedPayload s) ∧
  (∀ m : Measurement, decode s ≠ Ok m) ∧
  (∀ device : ScanEntry,
     get_scan_data device !! "16b Service Data" = Some s →
     parse_device_data device = Raise (MalformedPayload s)).
Proof.
  intros s. split.
  - reflexivity.
  - apply (decode_rejects_missing_marker s). reflexivity.
Defined.

(** ** Battery and humidity *)

(** C6. For an accepted payload the battery is the low seven bits of the
    integer spelled by characters 8..9, and the humidity is the integer
    spelled by characters 14..15 modulo 128: byte ff gives 127 in both
    fields, byte 64 gives battery 100 and byte 32 humidity 50. *)
Theorem decode_battery_humidity (s : string) (m : Measurement) :
  decode s = Ok m →
  ∃ byte2 h : Z,
    int_str16 (slice 8 10 s) = Ok byte2 ∧
    int_bytes16 (encode_utf8 (slice 14 16 s)) = Ok h ∧
    battery m = Z.land byte2 127 ∧
    battery m = byte2 `mod` 2 ^ 7 ∧
    humidity m = h `mod` 128 ∧
    (byte2 = 255 → battery m = 127) ∧
    (byte2 = 100 → battery m = 100) ∧
    (h = 255 → humidity m = 127) ∧
    (h = 50 → humidity m = 50).
Proof.
  intros H.
  destruct (decode_Ok s m H) as (byte2 & n & I & h & _ & Hb & _ & _ & Hh & ->).
  exists byte2, h. simpl.
  repeat split; try assumption; try (intros ->; reflexivity).
  apply (Z.land_ones byte2 7). lia.
Qed.

Lemma decode_battery_humidity_witness :
  let s := "000d4c64ff0350ff" in
  let m := mkMeasurement 127 (- (80 + 3 / 10)) 127 in
  decode s = Ok m ∧
  ∃ byte2 h : Z,
    int_str16 (slice 8 10 s) = Ok byte2 ∧
    int_bytes16 (encode_utf8 (slice 14 16 s)) = Ok h ∧
    battery m = Z.land byte2 127 ∧
    battery m = byte2 `mod` 2 ^ 7 ∧
    humidity m = h `mod` 128 ∧
    (byte2 = 255 → battery m = 127) ∧
    (byte2 = 100 → battery m = 100) ∧
    (h = 255 → humidity m = 127) ∧
    (h = 50 → humidity m = 50).
Proof.
  intros s m. split.
  - vm_compute. reflexivity.
  - apply (decode_battery_humidity s m). vm_compute. reflexivity.
Defined.

Example decode_battery_0x64_humidity_0x32 :
  decode "000d4c6464039a32"
  = Ok (mkMeasurement 100 (26 + 3 / 10) 50).
Proof. vm_compute. reflexivity. Qed.

(** C5, as the spec words it, fails: a battery byte and a humidity byte
    of ff are accepted and give 127 in both fields. *)
Lemma decode_percentages_exceed_100 :
  ∃ m : Measurement,
    decode "000d4c64ff0350ff" = Ok m ∧
    ¬ (0 ≤ battery m ≤ 100) ∧ ¬ (0 ≤ humidity m ≤ 100).
Proof.
  eexists. split; [vm_compute; reflexivity|]. simpl. lia.
Qed.

(** C5, amended. Every decoded measurement has its battery and its
    humidity in 0..127. *)
Theorem decode_percentages_below_128 (s : string) (m : Measurement) :
  decode s = Ok m →
  0 ≤ battery m ≤ 127 ∧ 0 ≤ humidity m ≤ 127.
Proof.
  intros H.
  destruct (decode_Ok s m H) as (byte2 & n & I & h & _ & _ & _ & _ & _ & ->).
  simpl. split.
  - assert (E : Z.land byte2 127 = byte2 `mod` 128)
      by (apply (Z.land_ones byte2 7); lia).
    rewrite E. pose proof (Z.mod_pos_bound byte2 128 eq_refl). lia.
  - pose proof (Z.mod_pos_bound h 128 eq_refl). lia.
Qed.

Lemma decode_percentages_below_128_witness :
  let s := "000d4c64ff0350ff" in
  let m := mkMeasurement 127 (- (80 + 3 / 10)) 127 in
  decode s = Ok m ∧ 0 ≤ battery m ≤ 127 ∧ 0 ≤ humidity m ≤ 127.
Proof.
  intros s m. split.
  - vm_compute. reflexivity.
  - apply (decode_percentages_below_128 s m). vm_compute. reflexivity.
Defined.

(** ** A missing or empty service-data field *)

Lemma lift_int_Raise (o : option Z) (e : exn) :
  lift_int o = Raise e → e = invalid_literal.
Proof. destruct o; simpl; congruence. Qed.

(** Past the frame marker only a literal can fail. *)
Lemma decode_Raise (s : string) (e : exn) :
  decode s = Raise e →
  (startswith s "000d" = false ∧ e = MalformedPayload s) ∨
  (startswith s "000d" = true ∧ e = invalid_literal).
Proof.
  unfold decode, int_str16, int_bytes16.
  destruct (startswith s "000d"); simpl; [|intros [= <-]; by left].
  intros H. right. split; [done|]. revert H.
  repeat match goal with
  | |- context [lift_int ?o] =>
      let E := fresh "E" in
      destruct (lift_int o) as [?|?] eqn:E; simpl;
      [|apply lift_int_Raise in E; congruence]
  | |- context [if ?b then _ else _] => destruct b; simpl
  end; discriminate.
Qed.

(** C7, as the spec words it, fails for the empty field: an empty string
    does not start with the frame marker, so it is rejected by the marker
    test with the malformed-payload error like any other text. *)
Lemma empty_service_data_is_malformed :
  parse_device_data
    (mkScanEntry "f2:0c:69:f4:56:af" (-60) true [(22, "16b Service Data", "")])
  = Raise (MalformedPayload "").
Proof. vm_compute. reflexivity. Qed.

(** C7, amended. [parse_device_data] tests the frame marker only and
    never whether the service-data field exists: on a record without the
    field it raises the [AttributeError] of calling [startswith] on
    [None], which is not the malformed-payload error; on a record whose
    field is the empty string it raises the malformed-payload error; and
    the malformed-payload error comes from the marker test alone. *)
Theorem parse_device_data_missing_or_empty (device : ScanEntry) :
  (get_scan_data device !! "16b Service Data" = None →
   parse_device_data device = Raise NoneType_startswith ∧
   ∀ s : string, parse_device_data device ≠ Raise (MalformedPayload s)) ∧
  (get_scan_data device !! "16b Service Data" = Some "" →
   parse_device_data device = Raise (MalformedPayload "")) ∧
  (∀ s : string,
     parse_device_data device = Raise (MalformedPayload s) →
     ∃ service_data : string,
       get_scan_data device !! "16b Service Data" = Some service_data ∧
       startswith service_data "000d" = false).
Proof.
  unfold parse_device_data.
  destruct (get_scan_data device !! "16b Service Data") as [sd|] eqn:Hf.
  - split; [discriminate|]. split.
    + intros [= ->]. reflexivity.
    + intros s H. exists sd. split; [reflexivity|].
      destruct (decode_Raise sd _ H) as [[Hp _]|[_ He]]; [exact Hp|].
      by apply MalformedPayload_not_invalid_literal in He.
  - split; [|split; discriminate].
    intros _. split; [reflexivity|]. discriminate.
Qed.

Lemma parse_device_data_missing_or_empty_witness :
  let absent := mkScanEntry "f2:0c:69:f4:56:af" (-60) true
                  [(255, "Manufacturer", "5900f20c69f456af")] in
  let empty := mkScanEntry "f2:0c:69:f4:56:af" (-60) true
                 [(22, "16b Service Data", "")] in
  parse_device_data absent = Raise NoneType_startswith ∧
  parse_device_data empty = Raise (MalformedPayload "").
Proof.
  intros absent empty. split.
  - apply (parse_device_data_missing_or_empty absent). reflexivity.
  - apply (parse_device_data_missing_or_empty empty). reflexivity.
Defined.

(** ** Classification *)

(** C2. The classifier answers true exactly when the record has scan
    fields, its "Manufacturer" field is present and starts with "5900",
    and its 128-bit service field equals the thermometer's identifier;
    a record without scan fields is never a target. *)
Theorem is_switchbot_thermometer_iff (device : ScanEntry) (w : world) :
  ((is_switchbot_thermometer device w).1 = true ↔
   getScanData device ≠ [] ∧
   (∃ manufacturer : string,
      get_scan_data device !! "Manufacturer" = Some manufacturer ∧
      startswith manufacturer "5900" = true) ∧
   get_scan_data device !! "Complete 128b Services"
   = Some "cba20d00-224d-11e6-9fb8-0002a5d5c51b") ∧
  (getScanData device = [] → (is_switchbot_thermometer device w).1 = false).
Proof.
  unfold is_switchbot_thermometer, get_scan_data.
  destruct (getScanData device) as [|t l] eqn:Hl.
  { simpl. split; [|done]. split; [discriminate|]. by intros [? _]. }
  split; [|discriminate].
  set (scan_data := foldl _ _ _).
  destruct (scan_data !! "Manufacturer") as [man|] eqn:Hm; simpl.
  - destruct (startswith man SWITCHBOT_MANUFACTURER_ID) eqn:Hs; simpl.
    + case_bool_decide as Hu; simpl.
      * split; [|done]. intros _. split; [done|]. split; [|exact Hu].
        exists man. done.
      * split; [discriminate|]. intros (_ & _ & Hu'). done.
    + split; [discriminate|].
      intros (_ & (man' & [= <-] & Hs') & _).
      unfold SWITCHBOT_MANUFACTURER_ID in Hs. congruence.
  - split; [discriminate|]. intros (_ & (man' & [=] & _) & _).
Qed.

(** ** What classification does to the state *)

Lemma emit_metrics (level : Z) (m : string) (a : list log_arg) (w : world) :
  metrics (logging.emit level m a w) = metrics w.
Proof. unfold logging.emit. by destruct (log_level w <=? level). Qed.

Lemma emit_log_level (level : Z) (m : string) (a : list log_arg) (w : world) :
  log_level (logging.emit level m a w) = log_level w.
Proof. unfold logging.emit. by destruct (log_level w <=? level). Qed.

Lemma emit_log (level : Z) (m : string) (a : list log_arg) (w : world) :
  ∃ l : list LogRecord, log (logging.emit level m a w) = (log w ++ l)%list.
Proof.
  unfold logging.emit. destruct (log_level w <=? level); simpl.
  - by eexists.
  - exists []. by rewrite app_nil_r.
Qed.

Lemma is_switchbot_thermometer_metrics (device : ScanEntry) (w : world) :
  metrics (is_switchbot_thermometer device w).2 = metrics w.
Proof. classify_cases device; by rewrite ?emit_metrics. Qed.

Lemma is_switchbot_thermometer_log_level (device : ScanEntry) (w : world) :
  log_level (is_switchbot_thermometer device w).2 = log_level w.
Proof. classify_cases device; by rewrite ?emit_log_level. Qed.

Lemma is_switchbot_thermometer_log (device : ScanEntry) (w : world) :
  ∃ l : list LogRecord,
    log (is_switchbot_thermometer device w).2 = (log w ++ l)%list.
Proof.
  classify_cases device;
    repeat match goal with
    | |- context [logging.emit ?lv ?m ?a ?w0] =>
        let l := fresh "l" in let E := fresh "E" in
        destruct (emit_log lv m a w0) as [l E]; rewrite E; clear E
    end;
    rewrite <- ?app_assoc; by eexists.
Qed.

Lemma get_scan_data_non_empty (d : ScanEntry) :
  getScanData d ≠ [] → get_scan_data d ≠ ∅.
Proof.
  unfold get_scan_data.
  assert (H : ∀ (l : list (Z * string * string)) (m : gmap string string),
             m ≠ ∅ → foldl (λ m t, <[t.1.2 := t.2]> m) m l ≠ ∅).
  { induction l as [|t l IH]; intros m Hm; simpl; [exact Hm|].
    apply IH, insert_non_empty. }
  destruct (getScanData d) as [|t l]; [done|]. intros _. simpl.
  apply H, insert_non_empty.
Qed.

(** The answer of the classifier is a function of the scan dictionary. *)
Lemma is_switchbot_thermometer_answer (d1 d2 : ScanEntry) (w1 w2 : world) :
  get_scan_data d1 = get_scan_data d2 →
  (is_switchbot_thermometer d1 w1).1 = (is_switchbot_thermometer d2 w2).1.
Proof.
  intros Heq.
  assert (Hne : ∀ d t l, getScanData d = t :: l → get_scan_data d ≠ ∅).
  { intros d t l Hd. apply get_scan_data_non_empty. by rewrite Hd. }
  unfold is_switchbot_thermometer.
  destruct (getScanData d1) as [|t1 l1] eqn:H1;
    destruct (getScanData d2) as [|t2 l2] eqn:H2.
  - reflexivity.
  - exfalso. apply (Hne d2 t2 l2 H2). rewrite <- Heq.
    unfold get_scan_data. by rewrite H1.
  - exfalso. apply (Hne d1 t1 l1 H1). rewrite Heq.
    unfold get_scan_data. by rewrite H2.
  - rewrite Heq.
    repeat match goal with
    | |- context [if ?b then _ else _] => destruct b; simpl
    end; reflexivity.
Qed.

(** C9. When the classifier answers false the callback returns normally
    right after classification: the state it leaves is the one the
    classifier left, no exception is raised whatever decoding would have
    done, and the four gauges are as before the advertisement. *)
Theorem handleDiscovery_drops_non_target
    (device : ScanEntry) (is_new_device is_new_data : bool) (w : world) :
  (is_switchbot_thermometer device w).1 = false →
  handleDiscovery device is_new_device is_new_data w
  = (Ok (), (is_switchbot_thermometer device w).2) ∧
  metrics (handleDiscovery device is_new_device is_new_data w).2 = metrics w.
Proof.
  intros Hc. unfold handleDiscovery.
  pose proof (is_switchbot_thermometer_metrics device w) as Hm.
  destruct (is_switchbot_thermometer device w) as [target w1].
  simpl in Hc, Hm. subst target. simpl. done.
Qed.

Lemma handleDiscovery_drops_non_target_witness :
  let device := mkScanEntry "11:22:33:44:55:66" (-80) false
                  [(255, "Manufacturer", "4c001005")] in
  let w := configure_logging 1 0 initial_world in
  parse_device_data device = Raise NoneType_startswith ∧
  (is_switchbot_thermometer device w).1 = false ∧
  handleDiscovery device true false w
  = (Ok (), (is_switchbot_thermometer device w).2) ∧
  metrics (handleDiscovery device true false w).2 = metrics w.
Proof.
  intros device w. split; [reflexivity|]. split; [reflexivity|].
  apply (handleDiscovery_drops_non_target device true false w).
  reflexivity.
Defined.

(** C10, as the spec words it, fails for the classifier: it consults the
    logging level and appends to the logging stream.  At the default
    level the record of a thermometer leaves a line behind; in a process
    started with one [-q] the same call leaves none. *)
Lemma is_switchbot_thermometer_touches_logging :
  let device := mkScanEntry "ee:ed:06:15:e1:fc" (-71) true
                  [(255, "Manufacturer", "5900eeed0615e1fc");
                   (7, "Complete 128b Services", SWITCHBOT_SERVICE_ID)] in
  let w := configure_logging 0 0 initial_world in
  is_switchbot_thermometer device w
  = (true,
     with_log w
       [mkLogRecord INFO "%s is Switchbot thermometer"
          [AStr ("Device (addr=ee:ed:06:15:e1:fc,name=Terasse,"
                 +:+ "rssi=-71,connectable=True)")]]) ∧
  (is_switchbot_thermometer device w).2 ≠ w ∧
  (is_switchbot_thermometer device (configure_logging 0 1 initial_world)).2
  = configure_logging 0 1 initial_world.
Proof.
  intros device w. split; [vm_compute; reflexivity|].
  split; [|vm_compute; reflexivity].
  intros H. apply (f_equal log) in H. vm_compute in H. discriminate.
Qed.

(** C10, amended. Both functions are deterministic in their inputs: two
    records with the same scan dictionary get the same answer from the
    classifier in any two states, and two records with the same
    service-data field get the same result from the decoder, which takes
    no part of the state at all.  The classifier leaves the gauges and
    the logging level alone and only appends to the logging stream. *)
Theorem classifier_and_decoder_deterministic
    (d1 d2 : ScanEntry) (w1 w2 : world) :
  (get_scan_data d1 = get_scan_data d2 →
   (is_switchbot_thermometer d1 w1).1 = (is_switchbot_thermometer d2 w2).1) ∧
  (get_scan_data d1 !! "16b Service Data"
   = get_scan_data d2 !! "16b Service Data" →
   parse_device_data d1 = parse_device_data d2) ∧
  metrics (is_switchbot_thermometer d1 w1).2 = metrics w1 ∧
  log_level (is_switchbot_thermometer d1 w1).2 = log_level w1 ∧
  ∃ l : list LogRecord,
    log (is_switchbot_thermometer d1 w1).2 = (log w1 ++ l)%list.
Proof.
  split; [apply is_switchbot_thermometer_answer|]. split.
  - intros H. unfold parse_device_data. by rewrite H.
  - split; [apply is_switchbot_thermometer_metrics|].
    split; [apply is_switchbot_thermometer_log_level|].
    apply is_switchbot_thermometer_log.
Qed.

Lemma classifier_and_decoder_deterministic_witness :
  let d1 := mkScanEntry "ee:ed:06:15:e1:fc" (-71) true
              [(255, "Manufacturer", "5900eeed0615e1fc");
               (22, "16b Service Data", "000d540064039a3f")] in
  let d2 := mkScanEntry "ce:e7:0b:2e:1a:fe" (-48) false
              [(22, "16b Service Data", "000d540064039a3f");
               (255, "Manufacturer", "5900eeed0615e1fc")] in
  let w1 := initial_world in
  let w2 := configure_logging 2 0 initial_world in
  (is_switchbot_thermometer d1 w1).1 = (is_switchbot_thermometer d2 w2).1 ∧
  parse_device_data d1 = parse_device_data d2.
Proof.
  intros d1 d2 w1 w2.
  destruct (classifier_and_decoder_deterministic d1 d2 w1 w2)
    as (Hc & Hd & _).
  split.
  - apply Hc. vm_compute. reflexivity.
  - apply Hd. vm_compute. reflexivity.
Defined.

(** ** The scan loop *)

Lemma deliver_app (before after : list advertisement) (w0 w : world) :
  deliver before w0 = (Ok (), w) →
  deliver (before ++ after) w0 = deliver after w.
Proof.
  revert w0. induction before as [|[[d f1] f2] before IH]; intros w0; simpl.
  - by intros [= ->].
  - destruct (handleDiscovery d f1 f2 w0) as [[[]|e] w1]; [apply IH|done].
Qed.

(** C4, as the spec words it, fails: a thermometer whose service data
    lacks the frame marker makes the loop exit with the [ValueError].
    The well-formed advertisement that follows it in the same window and
    the next window are never handled, although the same well-formed
    advertisement alone would have been published. *)
Lemma malformed_payload_ends_scan_loop :
  let bad := mkScanEntry "f2:0c:69:f4:56:af" (-60) true
               [(255, "Manufacturer", "5900f20c69f456af");
                (7, "Complete 128b Services", SWITCHBOT_SERVICE_ID);
                (22, "16b Service Data", "0d00540064039a3f")] in
  let good := mkScanEntry "ee:ed:06:15:e1:fc" (-71) true
                [(255, "Manufacturer", "5900eeed0615e1fc");
                 (7, "Complete 128b Services", SWITCHBOT_SERVICE_ID);
                 (22, "16b Service Data", "000d540064039a3f")] in
  let w := configure_logging 0 0 initial_world in
  (is_switchbot_thermometer bad w).1 = true ∧
  parse_device_data bad = Raise (MalformedPayload "0d00540064039a3f") ∧
  (scan_loop [mkWindow [(good, true, true)] None] w).1 = Scanning ∧
  gauge_humidity (scan_loop [mkWindow [(good, true, true)] None] w).2
    !! ("ee:ed:06:15:e1:fc", "Terasse") = Some (float_of_int 63) ∧
  (scan_loop [mkWindow [(bad, true, true); (good, true, true)] None;
              mkWindow [(good, false, true)] None] w).1
  = Exited (MalformedPayload "0d00540064039a3f") ∧
  metrics (scan_loop [mkWindow [(bad, true, true); (good, true, true)] None;
                      mkWindow [(good, false, true)] None] w).2
  = metrics w.
Proof. intros bad good w. repeat split; vm_compute; reflexivity. Qed.

(** C4, amended. When a record classifies as the target and decoding
    fails with the malformed-payload error, the callback raises that
    error with the gauges untouched, so nothing is published for the
    record; the error is not caught by the scanner nor by the loop, which
    exits with it at once, whatever advertisements and windows were still
    to come. *)
Theorem malformed_payload_propagates
    (device : ScanEntry) (is_new_device is_new_data : bool) (w : world)
    (s : string) :
  (is_switchbot_thermometer device w).1 = true →
  parse_device_data device = Raise (MalformedPayload s) →
  handleDiscovery device is_new_device is_new_data w
  = (Raise (MalformedPayload s), (is_switchbot_thermometer device w).2) ∧
  metrics (handleDiscovery device is_new_device is_new_data w).2 = metrics w ∧
  ∀ (w0 : world) (before after : list advertisement) (e : option exn)
    (rest : list window),
    deliver before w0 = (Ok (), w) →
    scan_loop
      (mkWindow (before ++ (device, is_new_device, is_new_data) :: after) e
       :: rest) w0
    = (Exited (MalformedPayload s), (is_switchbot_thermometer device w).2).
Proof.
  intros Hc Hd.
  assert (Hh : handleDiscovery device is_new_device is_new_data w
               = (Raise (MalformedPayload s),
                  (is_switchbot_thermometer device w).2)).
  { unfold handleDiscovery.
    destruct (is_switchbot_thermometer device w) as [target w1].
    simpl in Hc. subst target. by rewrite Hd. }
  split; [exact Hh|]. split.
  - rewrite Hh. apply is_switchbot_thermometer_metrics.
  - intros w0 before after e rest Hb. simpl. unfold scan. simpl.
    rewrite (deliver_app _ _ _ _ Hb). simpl. by rewrite Hh.
Qed.

Lemma malformed_payload_propagates_witness :
  let bad := mkScanEntry "f2:0c:69:f4:56:af" (-60) true
               [(255, "Manufacturer", "5900f20c69f456af");
                (7, "Complete 128b Services", SWITCHBOT_SERVICE_ID);
                (22, "16b Service Data", "0d00540064039a3f")] in
  let w := configure_logging 0 0 initial_world in
  (is_switchbot_thermometer bad w).1 = true ∧
  parse_device_data bad = Raise (MalformedPayload "0d00540064039a3f") ∧
  handleDiscovery bad true true w
  = (Raise (MalformedPayload "0d00540064039a3f"),
     (is_switchbot_thermometer bad w).2).
Proof.
  intros bad w. split; [vm_compute; reflexivity|].
  split; [vm_compute; reflexivity|].
  apply (malformed_payload_propagates bad true true w "0d00540064039a3f");
    vm_compute; reflexivity.
Defined.

(** C8. A disconnect error the transport raises during a scan window is
    caught: the loop records it and goes on with the next window.  Any
    other transport error leaves the loop as the uncaught exception.  No
    run of the loop ever exits with a disconnect error. *)
Theorem scan_loop_disconnect
    (win : window) (rest : list window) (w w1 : world) (e : exn) :
  deliver (events win) w = (Ok (), w1) →
  ending win = Some e →
  (is_BTLEDisconnectError e = true →
   scan_loop (win :: rest) w
   = scan_loop rest (logging.debug "Disconnection error: %s" [AExn e] w1)) ∧
  (is_BTLEDisconnectError e = false →
   scan_loop (win :: rest) w = (Exited e, w1)) ∧
  (∀ (wins : list window) (w0 w' : world) (e' : exn),
     scan_loop wins w0 = (Exited e', w') →
     is_BTLEDisconnectError e' = false).
Proof.
  intros Hd He.
  assert (Hs : scan win w = (Raise e, w1))
    by (unfold scan; by rewrite Hd, He).
  split; [|split].
  - intros Hc. simpl. by rewrite Hs, Hc.
  - intros Hc. simpl. by rewrite Hs, Hc.
  - induction wins as [|win' wins IH]; intros w0 w' e'; simpl; [done|].
    destruct (scan win' w0) as [[[]|e0] w2]; [apply IH|].
    destruct (is_BTLEDisconnectError e0) eqn:Hc; [apply IH|].
    by intros [= <- _].
Qed.

Lemma scan_loop_disconnect_witness :
  let good := mkScanEntry "ee:ed:06:15:e1:fc" (-71) true
                [(255, "Manufacturer", "5900eeed0615e1fc");
                 (7, "Complete 128b Services", SWITCHBOT_SERVICE_ID);
                 (22, "16b Service Data", "000d540064039a3f")] in
  let w := configure_logging 1 0 initial_world in
  let disconnect := BTLEDisconnectError "Device disconnected" in
  let failure := BTLEManagementError "Failed to execute management command" in
  let dropped := mkWindow [] (Some disconnect) in
  let broken := mkWindow [] (Some failure) in
  let quiet := mkWindow [(good, true, true)] None in
  (scan_loop [dropped; quiet] w).1 = Scanning ∧
  scan_loop [dropped; quiet] w
  = scan_loop [quiet]
      (logging.debug "Disconnection error: %s" [AExn disconnect] w) ∧
  scan_loop [broken; quiet] w = (Exited failure, w).
Proof.
  intros good w disconnect failure dropped broken quiet.
  split; [vm_compute; reflexivity|]. split.
  - apply (scan_loop_disconnect dropped [quiet] w w disconnect); reflexivity.
  - apply (scan_loop_disconnect broken [quiet] w w failure); reflexivity.
Defined.

(** * Further properties of the code *)

(** ** The scan dictionary *)

Lemma foldl_insert_lookup (l : list (Z * string * string))
    (m : gmap string string) (k : string) :
  foldl (λ m t, <[t.1.2 := t.2]> m) m l !! k
  = match last (filter (λ t, t.1.2 = k) l) with
    | Some t => Some t.2
    | None => m !! k
    end.
Proof.
  revert m. induction l as [|t l IH]; intros m; simpl; [done|].
  rewrite IH, filter_cons.
  destruct (decide (t.1.2 = k)) as [Hk|Hk].
  - destruct (filter (λ t, t.1.2 = k) l) as [|t' l'] eqn:Hf.
    + cbn. by rewrite <- Hk, lookup_insert_eq.
    + rewrite last_cons_cons.
      destruct (last (t' :: l')) eqn:E; [done|]. by apply last_None in E.
  - destruct (last (filter (λ t, t.1.2 = k) l)); [done|].
    by rewrite lookup_insert_ne.
Qed.

(** X1. Looking a description up in the scan dictionary gives the value
    of the last triple carrying that description, and nothing when no
    triple carries it. *)
Theorem get_scan_data_last_wins (device : ScanEntry) (k : string) :
  get_scan_data device !! k
  = (λ t, t.2) <$> last (filter (λ t, t.1.2 = k) (getScanData device)).
Proof.
  unfold get_scan_data. rewrite foldl_insert_lookup.
  destruct (last _); done.
Qed.

Lemma NoDup_fmap_eq {A B : Type} (f : A → B) (l : list A) (x y : A) :
  NoDup (f <$> l) → x ∈ l → y ∈ l → f x = f y → x = y.
Proof.
  induction l as [|a l IH]; intros Hnd Hx Hy Hf.
  - by apply elem_of_nil in Hx.
  - rewrite fmap_cons in Hnd. apply NoDup_cons in Hnd as [Hnot Hnd].
    apply elem_of_cons in Hx as [->|Hx]; apply elem_of_cons in Hy as [->|Hy].
    + done.
    + exfalso. apply Hnot. rewrite Hf. by apply list_elem_of_fmap_2.
    + exfalso. apply Hnot. rewrite <- Hf. by apply list_elem_of_fmap_2.
    + by apply IH.
Qed.

(** X2. When no two triples share a description, every triple can be
    read back from the dictionary, and the dictionary holds nothing
    else. *)
Theorem get_scan_data_unique (device : ScanEntry) (k v : string) :
  NoDup ((λ t, t.1.2) <$> getScanData device) →
  get_scan_data device !! k = Some v ↔
  ∃ c : Z, (c, k, v) ∈ getScanData device.
Proof.
  intros Hnd. unfold get_scan_data. rewrite foldl_insert_lookup. split.
  - destruct (last _) as [[[c k'] v']|] eqn:Hl; simpl; [|done].
    intros [= ->]. exists c.
    apply last_Some_elem_of, list_elem_of_filter in Hl as [Hk Hin].
    simpl in Hk. by subst k'.
  - intros [c Hin].
    assert (Hf : (c, k, v) ∈ filter (λ t, t.1.2 = k) (getScanData device))
      by (by apply list_elem_of_filter).
    destruct (last _) as [t|] eqn:Hl.
    + apply last_Some_elem_of, list_elem_of_filter in Hl as [Hk Ht].
      by rewrite (NoDup_fmap_eq _ _ t (c, k, v) Hnd Ht Hin Hk).
    + apply last_None in Hl. rewrite Hl in Hf. by apply elem_of_nil in Hf.
Qed.

Lemma get_scan_data_unique_witness :
  let device := mkScanEntry "ee:ed:06:15:e1:fc" (-71) true
                  [(1, "Flags", "06");
                   (255, "Manufacturer", "5900eeed0615e1fc");
                   (22, "16b Service Data", "000d540064039a3f")] in
  NoDup ((λ t, t.1.2) <$> getScanData device) ∧
  (get_scan_data device !! "Manufacturer" = Some "5900eeed0615e1fc" ↔
   ∃ c : Z, (c, "Manufacturer", "5900eeed0615e1fc") ∈ getScanData device).
Proof.
  intros device.
  assert (Hnd : NoDup ((λ t, t.1.2) <$> getScanData device))
    by (apply (bool_decide_unpack _); vm_compute; reflexivity).
  split; [exact Hnd|].
  exact (get_scan_data_unique device "Manufacturer" "5900eeed0615e1fc" Hnd).
Defined.

(** ** Well-formed and truncated payloads *)

Lemma hex_read_agrees_short : for_short hex_read_agrees = true.
Proof. vm_compute. reflexivity. Qed.

Lemma is_Ok_of_true (r : result Z) (v : Z) : is_Ok_of r v = true → r = Ok v.
Proof. destruct r as [v'|]; simpl; [|done]. intros H. f_equal. lia. Qed.

Lemma hex_byte_int (t : string) (v : Z) :
  hex_byte t = Some v →
  int_str16 t = Ok v ∧ int_bytes16 (encode_utf8 t) = Ok v ∧ 0 ≤ v ≤ 255.
Proof.
  intros Hv.
  assert (Hlen : (String.length t ≤ 2)%nat)
    by (destruct t as [|a [|b [|c t]]]; simpl in *; try lia; try done;
        repeat case_match; done).
  pose proof (for_short_spec _ t hex_read_agrees_short Hlen) as H.
  unfold hex_read_agrees in H. rewrite Hv in H.
  apply andb_true_iff in H as [H _]. apply andb_true_iff in H as [H1 H2].
  apply is_Ok_of_true in H1, H2. split; [done|]. split; [done|].
  pose proof (int_bytes16_byte t v Hlen H2) as Hr.
  split; [|lia].
  destruct t as [|a [|b [|c t]]]; simpl in Hv; try done.
  unfold digit_value in Hv. repeat case_match; simplify_eq; lia.
Qed.

Lemma hex_nibble_int (t : string) (v : Z) :
  hex_nibble t = Some v → int_bytes16 (encode_utf8 t) = Ok v.
Proof.
  intros Hv.
  assert (Hlen : (String.length t ≤ 2)%nat)
    by (destruct t as [|a [|b t]]; simpl in *; try lia; done).
  pose proof (for_short_spec _ t hex_read_agrees_short Hlen) as H.
  unfold hex_read_agrees in H. rewrite Hv in H.
  apply andb_true_iff in H as [_ H]. by apply is_Ok_of_true.
Qed.

(** X3. A payload that starts with the frame marker and carries
    hexadecimal digits at characters 8..9 and 11..15 is always decoded:
    the battery and the humidity are the two bytes modulo 128, and the
    temperature follows the sign rule on the integral byte and the
    nibble. *)
Theorem decode_hex_payload (s : string) (b n I h : Z) :
  startswith s "000d" = true →
  hex_byte (slice 8 10 s) = Some b →
  hex_nibble (slice 11 12 s) = Some n →
  hex_byte (slice 12 14 s) = Some I →
  hex_byte (slice 14 16 s) = Some h →
  ∃ m : Measurement,
    decode s = Ok m ∧
    battery m = b `mod` 128 ∧
    humidity m = h `mod` 128 ∧
    PrimFloat.eqb (temperature m)
      (let F := (float_of_int n / 10)%float in
       if I <? 128 then (- (float_of_int I + F))%float
       else (float_of_int (I - 128) + F)%float) = true.
Proof.
  intros Hp Hb Hn HI Hh.
  destruct (hex_byte_int _ _ Hb) as (Eb & _ & _).
  destruct (hex_byte_int _ _ HI) as (_ & EI & HIr).
  destruct (hex_byte_int _ _ Hh) as (_ & Eh & _).
  pose proof (hex_nibble_int _ _ Hn) as En.
  assert (Hnr : 0 ≤ n ≤ 15).
  { apply (int_bytes16_nibble (slice 11 12 s)); [|exact En].
    pose proof (length_slice 11 12 s). lia. }
  exists (mkMeasurement (Z.land b 127) (temperature_of I n) (h `mod` 128)).
  split; [|split; [|split]].
  - unfold decode, temperature_of. rewrite Hp, Eb. simpl.
    rewrite En. simpl. rewrite EI. simpl.
    destruct (I <? 128); rewrite Eh; reflexivity.
  - simpl. apply (Z.land_ones b 7). lia.
  - reflexivity.
  - simpl. apply (temperature_of_sign_rule I n); lia.
Qed.

Lemma decode_hex_payload_witness :
  let s := "000d540064039a3f" in
  startswith s "000d" = true ∧
  ∃ m : Measurement,
    decode s = Ok m ∧
    battery m = 100 `mod` 128 ∧
    humidity m = 63 `mod` 128 ∧
    PrimFloat.eqb (temperature m)
      (let F := (float_of_int 3 / 10)%float in
       if 154 <? 128 then (- (float_of_int 154 + F))%float
       else (float_of_int (154 - 128) + F)%float) = true.
Proof.
  intros s. split; [reflexivity|].
  apply (decode_hex_payload s 100 3 154 63); reflexivity.
Defined.

Lemma substring_beyond (n m : nat) (s : string) :
  (String.length s ≤ n)%nat → String.substring n m s = "".
Proof.
  revert n m. induction s as [|c s IH]; intros [|n] m Hlen; simpl in *.
  - by destruct m.
  - done.
  - lia.
  - apply IH. lia.
Qed.

(** X4. A payload that starts with the frame marker but is at most 14
    characters long is rejected by [int], not by the marker test: the
    error is the [ValueError] of an invalid literal, which is not the
    malformed-payload message. *)
Theorem decode_truncated (s : string) :
  startswith s "000d" = true →
  (String.length s ≤ 14)%nat →
  decode s = Raise invalid_literal ∧ decode s ≠ Raise (MalformedPayload s).
Proof.
  intros Hp Hlen.
  assert (Hd : decode s = Raise invalid_literal).
  { destruct (decode s) as [m|e] eqn:Hd.
    - destruct (decode_Ok s m Hd) as (? & ? & ? & h & _ & _ & _ & _ & Hh & _).
      unfold slice in Hh. rewrite substring_beyond in Hh by exact Hlen.
      discriminate.
    - destruct (decode_Raise s e Hd) as [[Hq _]|[_ ->]]; [congruence|done]. }
  split; [exact Hd|]. rewrite Hd. intros [= H].
Qed.

Lemma decode_truncated_witness :
  let s := "000d5400640399" in
  startswith s "000d" = true ∧ (String.length s ≤ 14)%nat ∧
  decode s = Raise invalid_literal ∧ decode s ≠ Raise (MalformedPayload s).
Proof.
  intros s. split; [reflexivity|]. split; [vm_compute; lia|].
  apply (decode_truncated s); [reflexivity|vm_compute; lia].
Defined.

Lemma temperature_bounded_true : temperature_bounded = true.
Proof. vm_compute. reflexivity. Qed.

Lemma decode_Ok_ranges (s : string) (m : Measurement) :
  decode s = Ok m →
  0 ≤ battery m ≤ 127 ∧ 0 ≤ humidity m ≤ 127 ∧
  PrimFloat.leb (-128.5) (temperature m) = true ∧
  PrimFloat.leb (temperature m) 128.5 = true.
Proof.
  intros H.
  destruct (decode_Ok s m H) as (byte2 & n & I & h & _ & _ & Hn & HI & _ & ->).
  assert (Hnr : 0 ≤ n ≤ 15).
  { apply (int_bytes16_nibble (slice 11 12 s)); [|exact Hn].
    pose proof (length_slice 11 12 s). lia. }
  assert (HIr : -15 ≤ I ≤ 255).
  { apply (int_bytes16_byte (slice 12 14 s)); [|exact HI].
    pose proof (length_slice 12 14 s). lia. }
  simpl. split; [|split].
  - assert (E : Z.land byte2 127 = byte2 `mod` 128)
      by (apply (Z.land_ones byte2 7); lia).
    rewrite E. pose proof (Z.mod_pos_bound byte2 128 eq_refl). lia.
  - pose proof (Z.mod_pos_bound h 128 eq_refl). lia.
  - apply andb_true_iff.
    pose proof temperature_bounded_true as Hb.
    unfold temperature_bounded in Hb. rewrite forallb_forall in Hb.
    assert (Hr : In I (seqZ (-15) 271))
      by (apply list_elem_of_In, elem_of_seqZ; lia).
    specialize (Hb I Hr). rewrite forallb_forall in Hb.
    apply Hb, list_elem_of_In, elem_of_seqZ. lia.
Qed.

(** X5. Every decoded temperature is a number between -128.5 and 128.5
    degrees; in particular it is never a NaN or an infinity. *)
Theorem decode_temperature_bounds (s : string) (m : Measurement) :
  decode s = Ok m →
  PrimFloat.leb (-128.5) (temperature m) = true ∧
  PrimFloat.leb (temperature m) 128.5 = true.
Proof.
  intros H. by destruct (decode_Ok_ranges s m H) as (_ & _ & Hlo & Hhi).
Qed.

Lemma decode_temperature_bounds_witness :
  let s := "000d4c6400ff7f32" in
  let m := mkMeasurement 0 (-128.5) 50 in
  decode s = Ok m ∧
  PrimFloat.leb (-128.5) (temperature m) = true ∧
  PrimFloat.leb (temperature m) 128.5 = true.
Proof.
  intros s m. split; [vm_compute; reflexivity|].
  apply (decode_temperature_bounds s m). vm_compute. reflexivity.
Defined.

(** ** Publication *)

(** X6. Publishing stores the signal strength and the three fields of
    the measurement under the label pair of the device, the friendly
    name or else the address, and leaves every other label pair of every
    gauge as it was. *)
Theorem publish_measurement_lookup
    (device : ScanEntry) (m : Measurement) (w : world) :
  let w' := publish_measurement device m w in
  label device
  = (addr device,
     match DEVICE_NAME_MAP !! addr device with
     | Some name => name
     | None => addr device
     end) ∧
  gauge_rssi w' !! label device = Some (float_of_int (rssi device)) ∧
  gauge_battery w' !! label device = Some (float_of_int (battery m)) ∧
  gauge_humidity w' !! label device = Some (float_of_int (humidity m)) ∧
  gauge_temperature w' !! label device = Some (temperature m) ∧
  ∀ k : string * string,
    k ≠ label device →
    gauge_rssi w' !! k = gauge_rssi w !! k ∧
    gauge_battery w' !! k = gauge_battery w !! k ∧
    gauge_humidity w' !! k = gauge_humidity w !! k ∧
    gauge_temperature w' !! k = gauge_temperature w !! k.
Proof.
  unfold publish_measurement, logging.info, logging.emit, gauge_set, label.
  split; [by destruct (DEVICE_NAME_MAP !! addr device)|].
  destruct (log_level w <=? INFO); simpl;
    rewrite !lookup_insert_eq; repeat split; try done;
    by rewrite lookup_insert_ne.
Qed.

Lemma publish_measurement_gauges
    (device : ScanEntry) (m : Measurement) (w : world) :
  gauge_rssi (publish_measurement device m w)
  = <[label device := float_of_int (rssi device)]> (gauge_rssi w) ∧
  gauge_battery (publish_measurement device m w)
  = <[label device := float_of_int (battery m)]> (gauge_battery w) ∧
  gauge_humidity (publish_measurement device m w)
  = <[label device := float_of_int (humidity m)]> (gauge_humidity w) ∧
  gauge_temperature (publish_measurement device m w)
  = <[label device := temperature m]> (gauge_temperature w).
Proof.
  unfold publish_measurement, logging.info, logging.emit, gauge_set, label.
  by destruct (log_level w <=? INFO).
Qed.

(** X7. A second publication for the same address replaces the first:
    the gauges end as if only the second had happened. *)
Theorem publish_measurement_overwrites
    (d1 d2 : ScanEntry) (m1 m2 : Measurement) (w : world) :
  addr d1 = addr d2 →
  metrics (publish_measurement d2 m2 (publish_measurement d1 m1 w))
  = metrics (publish_measurement d2 m2 w).
Proof.
  intros Ha.
  assert (Hl : label d1 = label d2) by (unfold label; by rewrite Ha).
  unfold metrics.
  destruct (publish_measurement_gauges d2 m2 (publish_measurement d1 m1 w))
    as (-> & -> & -> & ->).
  destruct (publish_measurement_gauges d1 m1 w) as (-> & -> & -> & ->).
  destruct (publish_measurement_gauges d2 m2 w) as (-> & -> & -> & ->).
  rewrite Hl. by rewrite !insert_insert_eq.
Qed.

Lemma publish_measurement_overwrites_witness :
  let d1 := mkScanEntry "ce:e7:0b:2e:1a:fe" (-48) true [] in
  let d2 := mkScanEntry "ce:e7:0b:2e:1a:fe" (-77) false [] in
  let m1 := mkMeasurement 100 (float_of_int 21) 40 in
  let m2 := mkMeasurement 99 (float_of_int 22) 41 in
  let w := initial_world in
  metrics (publish_measurement d2 m2 (publish_measurement d1 m1 w))
  = metrics (publish_measurement d2 m2 w).
Proof.
  intros d1 d2 m1 m2 w.
  apply (publish_measurement_overwrites d1 d2 m1 m2 w). reflexivity.
Defined.

(** X8. Publications for two different addresses do not disturb each
    other: in either order the gauges end the same. *)
Theorem publish_measurement_commutes
    (d1 d2 : ScanEntry) (m1 m2 : Measurement) (w : world) :
  addr d1 ≠ addr d2 →
  metrics (publish_measurement d2 m2 (publish_measurement d1 m1 w))
  = metrics (publish_measurement d1 m1 (publish_measurement d2 m2 w)).
Proof.
  intros Ha.
  assert (Hl : label d2 ≠ label d1) by (unfold label; congruence).
  unfold metrics.
  destruct (publish_measurement_gauges d2 m2 (publish_measurement d1 m1 w))
    as (-> & -> & -> & ->).
  destruct (publish_measurement_gauges d1 m1 (publish_measurement d2 m2 w))
    as (-> & -> & -> & ->).
  destruct (publish_measurement_gauges d1 m1 w) as (-> & -> & -> & ->).
  destruct (publish_measurement_gauges d2 m2 w) as (-> & -> & -> & ->).
  f_equal; [f_equal; [f_equal|]|]; by apply insert_insert_ne.
Qed.

Lemma publish_measurement_commutes_witness :
  let d1 := mkScanEntry "ce:e7:0b:2e:1a:fe" (-48) true [] in
  let d2 := mkScanEntry "ee:ed:06:15:e1:fc" (-77) false [] in
  let m1 := mkMeasurement 100 (float_of_int 21) 40 in
  let m2 := mkMeasurement 99 (float_of_int 22) 41 in
  let w := initial_world in
  metrics (publish_measurement d2 m2 (publish_measurement d1 m1 w))
  = metrics (publish_measurement d1 m1 (publish_measurement d2 m2 w)).
Proof.
  intros d1 d2 m1 m2 w.
  apply (publish_measurement_commutes d1 d2 m1 m2 w). discriminate.
Defined.

(** ** The discovery callback *)

(** X9. For a record the classifier accepts and the decoder reads, the
    callback returns normally with the measurement published: the state
    is the classifier's followed by the publication, and the temperature
    gauge holds the decoded temperature under the device's label. *)
Theorem handleDiscovery_publishes
    (device : ScanEntry) (is_new_device is_new_data : bool) (w : world)
    (m : Measurement) :
  (is_switchbot_thermometer device w).1 = true →
  parse_device_data device = Ok m →
  handleDiscovery device is_new_device is_new_data w
  = (Ok (),
     publish_measurement device m (is_switchbot_thermometer device w).2) ∧
  gauge_temperature (handleDiscovery device is_new_device is_new_data w).2
    !! label device = Some (temperature m) ∧
  gauge_rssi (handleDiscovery device is_new_device is_new_data w).2
    !! label device = Some (float_of_int (rssi device)).
Proof.
  intros Hc Hd.
  assert (Hh : handleDiscovery device is_new_device is_new_data w
               = (Ok (), publish_measurement device m
                           (is_switchbot_thermometer device w).2)).
  { unfold handleDiscovery.
    destruct (is_switchbot_thermometer device w) as [target w1].
    simpl in Hc. subst target. by rewrite Hd. }
  rewrite Hh. split; [done|].
  destruct (publish_measurement_gauges device m
              (is_switchbot_thermometer device w).2) as (Hr & _ & _ & Ht).
  split; cbn [snd]; [rewrite Ht|rewrite Hr]; by rewrite lookup_insert_eq.
Qed.

Lemma handleDiscovery_publishes_witness :
  let good := mkScanEntry "ee:ed:06:15:e1:fc" (-71) true
                [(255, "Manufacturer", "5900eeed0615e1fc");
                 (7, "Complete 128b Services", SWITCHBOT_SERVICE_ID);
                 (22, "16b Service Data", "000d540064039a3f")] in
  let w := configure_logging 0 0 initial_world in
  let m := mkMeasurement 100 (26 + 3 / 10) 63 in
  (is_switchbot_thermometer good w).1 = true ∧
  parse_device_data good = Ok m ∧
  gauge_temperature (handleDiscovery good true true w).2
    !! ("ee:ed:06:15:e1:fc", "Terasse") = Some (26 + 3 / 10)%float.
Proof.
  intros good w m. split; [vm_compute; reflexivity|].
  split; [vm_compute; reflexivity|].
  apply (handleDiscovery_publishes good true true w m);
    vm_compute; reflexivity.
Defined.

Lemma handleDiscovery_Raise
    (device : ScanEntry) (is_new_device is_new_data : bool) (w w' : world)
    (e : exn) :
  handleDiscovery device is_new_device is_new_data w = (Raise e, w') →
  (is_switchbot_thermometer device w).1 = true ∧
  parse_device_data device = Raise e ∧
  w' = (is_switchbot_thermometer device w).2.
Proof.
  unfold handleDiscovery.
  destruct (is_switchbot_thermometer device w) as [[] w1]; simpl; [|done].
  destruct (parse_device_data device) as [m|e'] eqn:Hd; [done|].
  by intros [= -> ->].
Qed.

(** X10. The callback raises only for a record the classifier accepted
    and the decoder refused: the exception is the decoder's, it is the
    missing-field, the invalid-literal or the malformed-payload error,
    and the gauges are as before. *)
Theorem handleDiscovery_raises_decode_errors
    (device : ScanEntry) (is_new_device is_new_data : bool) (w w' : world)
    (e : exn) :
  handleDiscovery device is_new_device is_new_data w = (Raise e, w') →
  (is_switchbot_thermometer device w).1 = true ∧
  parse_device_data device = Raise e ∧
  metrics w' = metrics w ∧
  (e = NoneType_startswith ∨ e = invalid_literal ∨
   ∃ s : string,
     get_scan_data device !! "16b Service Data" = Some s ∧
     e = MalformedPayload s).
Proof.
  intros H. apply handleDiscovery_Raise in H as (Hc & Hd & ->).
  split; [exact Hc|]. split; [exact Hd|].
  split; [apply is_switchbot_thermometer_metrics|].
  unfold parse_device_data in Hd.
  destruct (get_scan_data device !! "16b Service Data") as [s|].
  - destruct (decode_Raise s e Hd) as [[_ ->]|[_ ->]]; eauto.
  - injection Hd as <-. by left.
Qed.

Lemma handleDiscovery_raises_decode_errors_witness :
  let device := mkScanEntry "f2:0c:69:f4:56:af" (-60) true
                  [(255, "Manufacturer", "5900f20c69f456af");
                   (7, "Complete 128b Services", SWITCHBOT_SERVICE_ID)] in
  let w := configure_logging 0 0 initial_world in
  parse_device_data device = Raise NoneType_startswith ∧
  metrics (handleDiscovery device true true w).2 = metrics w.
Proof.
  intros device w.
  destruct (handleDiscovery_raises_decode_errors device true true w
              (handleDiscovery device true true w).2 NoneType_startswith)
    as (_ & Hd & Hm & _); [vm_compute; reflexivity|].
  split; [exact Hd|exact Hm].
Defined.

(** ** What every step of the loop preserves *)

Section Preserved.

Variable Inv : world → Prop.

Hypothesis Inv_emit :
  ∀ (level : Z) (m : string) (a : list log_arg) (w : world),
    level ≤ INFO → Inv w → Inv (logging.emit level m a w).

Hypothesis Inv_publish :
  ∀ (d : ScanEntry) (m : Measurement) (w : world),
    parse_device_data d = Ok m → Inv w → Inv (publish_measurement d m w).

Lemma is_switchbot_thermometer_preserves (d : ScanEntry) (w : world) :
  Inv w → Inv (is_switchbot_thermometer d w).2.
Proof. intros H. classify_cases d; repeat apply Inv_emit; done. Qed.

Lemma handleDiscovery_preserves (d : ScanEntry) (f1 f2 : bool) (w : world) :
  Inv w → Inv (handleDiscovery d f1 f2 w).2.
Proof.
  intros H. unfold handleDiscovery.
  pose proof (is_switchbot_thermometer_preserves d w H) as H1.
  destruct (is_switchbot_thermometer d w) as [[] w1]; simpl in *; [|done].
  destruct (parse_device_data d) as [m|e] eqn:Hd; simpl; [|done].
  by apply Inv_publish.
Qed.

Lemma deliver_preserves (evs : list advertisement) (w : world) :
  Inv w → Inv (deliver evs w).2.
Proof.
  revert w. induction evs as [|[[d f1] f2] evs IH]; intros w H; simpl; [done|].
  pose proof (handleDiscovery_preserves d f1 f2 w H) as H1.
  destruct (handleDiscovery d f1 f2 w) as [[[]|e] w1]; simpl in *; auto.
Qed.

Lemma scan_preserves (win : window) (w : world) :
  Inv w → Inv (scan win w).2.
Proof.
  intros H. unfold scan.
  pose proof (deliver_preserves (events win) w H) as H1.
  destruct (deliver (events win) w) as [[[]|e] w1]; simpl in *; [|done].
  by destruct (ending win).
Qed.

Lemma scan_loop_preserves (wins : list window) (w : world) :
  Inv w → Inv (scan_loop wins w).2.
Proof.
  revert w. induction wins as [|win wins IH]; intros w H; simpl; [done|].
  pose proof (scan_preserves win w H) as H1.
  destruct (scan win w) as [[[]|e] w1]; simpl in *; [by apply IH|].
  destruct (is_BTLEDisconnectError e); [|done].
  apply IH, Inv_emit; done.
Qed.

End Preserved.

Lemma parse_device_data_Ok (d : ScanEntry) (m : Measurement) :
  parse_device_data d = Ok m → ∃ s : string, decode s = Ok m.
Proof.
  unfold parse_device_data.
  destruct (get_scan_data d !! "16b Service Data") as [s|]; [|done].
  by exists s.
Qed.

(** ** Runs of the scan loop *)

(** X11. Playing one list of windows after another is the same as
    playing their concatenation, and an exit is final: the windows after
    it are not played. *)
Theorem scan_loop_app (wins1 wins2 : list window) (w : world) :
  scan_loop (wins1 ++ wins2) w
  = match scan_loop wins1 w with
    | (Scanning, w1) => scan_loop wins2 w1
    | (Exited e, w1) => (Exited e, w1)
    end.
Proof.
  revert w. induction wins1 as [|win wins1 IH]; intros w; simpl; [done|].
  destruct (scan win w) as [[[]|e] w1]; [apply IH|].
  destruct (is_BTLEDisconnectError e); [apply IH|done].
Qed.

Lemma deliver_Raise (evs : list advertisement) (w w' : world) (e : exn) :
  deliver evs w = (Raise e, w') →
  ∃ (d : ScanEntry) (f1 f2 : bool),
    (d, f1, f2) ∈ evs ∧ parse_device_data d = Raise e.
Proof.
  revert w. induction evs as [|[[d f1] f2] evs IH]; intros w; simpl; [done|].
  destruct (handleDiscovery d f1 f2 w) as [[[]|e0] w1] eqn:Hh.
  - intros H. destruct (IH _ H) as (d' & f1' & f2' & Hin & Hd).
    exists d', f1', f2'. split; [by right|done].
  - intros [= -> ->]. apply handleDiscovery_Raise in Hh as (_ & Hd & _).
    exists d, f1, f2. split; [by left|done].
Qed.

Lemma scan_Raise (win : window) (w w' : world) (e : exn) :
  scan win w = (Raise e, w') →
  ending win = Some e ∨
  ∃ (d : ScanEntry) (f1 f2 : bool),
    (d, f1, f2) ∈ events win ∧ parse_device_data d = Raise e.
Proof.
  unfold scan.
  destruct (deliver (events win) w) as [[[]|e0] w1] eqn:Hd.
  - destruct (ending win); [|done]. intros [= -> _]. by left.
  - intros [= -> ->]. right. by apply deliver_Raise in Hd.
Qed.

(** X12. When the loop exits, the exception is either one the transport
    raised at the end of one of the windows, or the one the decoder
    raised on one of the advertisements. *)
Theorem scan_loop_exit_causes
    (wins : list window) (w w' : world) (e : exn) :
  scan_loop wins w = (Exited e, w') →
  (∃ win : window, win ∈ wins ∧ ending win = Some e) ∨
  (∃ (win : window) (d : ScanEntry) (f1 f2 : bool),
     win ∈ wins ∧ (d, f1, f2) ∈ events win ∧
     parse_device_data d = Raise e).
Proof.
  revert w. induction wins as [|win wins IH]; intros w; simpl; [done|].
  assert (Hrest : ∀ w1, scan_loop wins w1 = (Exited e, w') →
    (∃ win0, win0 ∈ win :: wins ∧ ending win0 = Some e) ∨
    (∃ win0 d f1 f2, win0 ∈ win :: wins ∧ (d, f1, f2) ∈ events win0 ∧
       parse_device_data d = Raise e)).
  { intros w1 H.
    destruct (IH _ H) as [(win0 & Hin & He)|(win0 & d & f1 & f2 & Hin & Hr)].
    - left. exists win0. split; [by right|done].
    - right. exists win0, d, f1, f2. split; [by right|done]. }
  destruct (scan win w) as [[[]|e0] w1] eqn:Hs; [apply Hrest|].
  destruct (is_BTLEDisconnectError e0); [apply Hrest|].
  intros [= -> ->].
  destruct (scan_Raise _ _ _ _ Hs) as [He|(d & f1 & f2 & Hin & Hd)].
  - left. exists win. split; [by left|done].
  - right. exists win, d, f1, f2. split; [by left|done].
Qed.

Lemma scan_loop_exit_causes_witness :
  let bad := mkScanEntry "f2:0c:69:f4:56:af" (-60) true
               [(255, "Manufacturer", "5900f20c69f456af");
                (7, "Complete 128b Services", SWITCHBOT_SERVICE_ID);
                (22, "16b Service Data", "000d")] in
  let w := configure_logging 0 0 initial_world in
  let wins := [mkWindow [] None; mkWindow [(bad, true, true)] None] in
  (∃ win : window, win ∈ wins ∧ ending win = Some invalid_literal) ∨
  (∃ (win : window) (d : ScanEntry) (f1 f2 : bool),
     win ∈ wins ∧ (d, f1, f2) ∈ events win ∧
     parse_device_data d = Raise invalid_literal).
Proof.
  intros bad w wins.
  apply (scan_loop_exit_causes wins w (scan_loop wins w).2 invalid_literal).
  vm_compute. reflexivity.
Defined.



(** ** Logging along a run *)

Lemma publish_measurement_log_level
    (d : ScanEntry) (m : Measurement) (w : world) :
  log_level (publish_measurement d m w) = log_level w.
Proof.
  unfold publish_measurement, logging.info. simpl. apply emit_log_level.
Qed.

Lemma publish_measurement_log
    (d : ScanEntry) (m : Measurement) (w : world) :
  log (publish_measurement d m w)
  = log (logging.info "Published: %s" [AJsonMeasurement m] w).
Proof. reflexivity. Qed.

(** X14. A run of the loop never changes the logging level and never
    rewrites the stream: the records present before are a prefix of the
    records present after. *)
Theorem scan_loop_log_grows (wins : list window) (w : world) :
  log_level (scan_loop wins w).2 = log_level w ∧
  ∃ l : list LogRecord, log (scan_loop wins w).2 = (log w ++ l)%list.
Proof.
  apply (scan_loop_preserves
           (λ w', log_level w' = log_level w ∧
                  ∃ l, log w' = (log w ++ l)%list)).
  - intros level m a w0 _ [Hl [l Hg]]. split.
    + by rewrite emit_log_level.
    + destruct (emit_log level m a w0) as [l' ->]. rewrite Hg.
      exists (l ++ l')%list. by rewrite app_assoc.
  - intros d m w0 _ [Hl [l Hg]]. split.
    + by rewrite publish_measurement_log_level.
    + rewrite publish_measurement_log.
      destruct (emit_log INFO "Published: %s" [AJsonMeasurement m] w0)
        as [l' Hl'].
      unfold logging.info. rewrite Hl', Hg.
      exists (l ++ l')%list. by rewrite app_assoc.
  - split; [done|]. exists []. by rewrite app_nil_r.
Qed.

Lemma emit_silent (level : Z) (m : string) (a : list log_arg) (w : world) :
  level < log_level w → logging.emit level m a w = w.
Proof.
  intros H. unfold logging.emit.
  destruct (log_level w <=? level) eqn:E; [lia|done].
Qed.

(** X15. When the logging level is above INFO, as after more [-q] than
    [-v], a run of the loop writes nothing to the stream, whatever it
    classifies, publishes or catches. *)
Theorem scan_loop_silent (wins : list window) (w : world) :
  INFO < log_level w →
  log (scan_loop wins w).2 = log w.
Proof.
  intros Hq.
  apply (scan_loop_preserves
           (λ w', INFO < log_level w' ∧ log w' = log w)); [| |done].
  - intros level m a w0 Hl [Hq0 Hg]. rewrite emit_silent by lia. done.
  - intros d m w0 _ [Hq0 Hg]. split.
    + by rewrite publish_measurement_log_level.
    + rewrite publish_measurement_log. unfold logging.info.
      rewrite emit_silent by lia. done.
Qed.

Lemma scan_loop_silent_witness :
  let good := mkScanEntry "ee:ed:06:15:e1:fc" (-71) true
                [(255, "Manufacturer", "5900eeed0615e1fc");
                 (7, "Complete 128b Services", SWITCHBOT_SERVICE_ID);
                 (22, "16b Service Data", "000d540064039a3f")] in
  let w := configure_logging 0 1 initial_world in
  let wins :=
    [mkWindow [(good, true, true)]
              (Some (BTLEDisconnectError "Device disconnected"))] in
  INFO < log_level w ∧ log (scan_loop wins w).2 = log w.
Proof.
  intros good w wins. split; [vm_compute; reflexivity|].
  apply (scan_loop_silent wins w). vm_compute. reflexivity.
Defined.


(** ** The gauges along a run *)

Lemma emit_gauges (level : Z) (m : string) (a : list log_arg) (w : world) :
  gauge_rssi (logging.emit level m a w) = gauge_rssi w ∧
  gauge_battery (logging.emit level m a w) = gauge_battery w ∧
  gauge_humidity (logging.emit level m a w) = gauge_humidity w ∧
  gauge_temperature (logging.emit level m a w) = gauge_temperature w.
Proof. unfold logging.emit. by destruct (log_level w <=? level). Qed.

(** X17. A run of the loop never removes a sample: a label pair present
    in a gauge before is present in it after. *)
Theorem scan_loop_keeps_labels
    (wins : list window) (w : world) (k : string * string) :
  (k ∈ dom (gauge_rssi w) → k ∈ dom (gauge_rssi (scan_loop wins w).2)) ∧
  (k ∈ dom (gauge_battery w) →
   k ∈ dom (gauge_battery (scan_loop wins w).2)) ∧
  (k ∈ dom (gauge_humidity w) →
   k ∈ dom (gauge_humidity (scan_loop wins w).2)) ∧
  (k ∈ dom (gauge_temperature w) →
   k ∈ dom (gauge_temperature (scan_loop wins w).2)).
Proof.
  apply (scan_loop_preserves
    (λ w',
       (k ∈ dom (gauge_rssi w) → k ∈ dom (gauge_rssi w')) ∧
       (k ∈ dom (gauge_battery w) → k ∈ dom (gauge_battery w')) ∧
       (k ∈ dom (gauge_humidity w) → k ∈ dom (gauge_humidity w')) ∧
       (k ∈ dom (gauge_temperature w) → k ∈ dom (gauge_temperature w'))));
    [| |done].
  - intros level m a w0 _ H.
    by destruct (emit_gauges level m a w0) as (-> & -> & -> & ->).
  - intros d m w0 _ (H1 & H2 & H3 & H4).
    destruct (publish_measurement_gauges d m w0) as (-> & -> & -> & ->).
    rewrite !dom_insert_L. set_solver.
Qed.

Lemma scan_loop_keeps_labels_witness :
  let good := mkScanEntry "ee:ed:06:15:e1:fc" (-71) true
                [(255, "Manufacturer", "5900eeed0615e1fc");
                 (7, "Complete 128b Services", SWITCHBOT_SERVICE_ID);
                 (22, "16b Service Data", "000d540064039a3f")] in
  let other := mkScanEntry "ce:e7:0b:2e:1a:fe" (-48) true [] in
  let w := publish_measurement other (mkMeasurement 90 (float_of_int 19) 55)
             (configure_logging 0 0 initial_world) in
  let wins := [mkWindow [(good, true, true)] None] in
  ("ce:e7:0b:2e:1a:fe", "Bad")
  ∈ dom (gauge_temperature (scan_loop wins w).2).
Proof.
  intros good other w wins.
  apply (scan_loop_keeps_labels wins w ("ce:e7:0b:2e:1a:fe", "Bad")).
  apply (bool_decide_unpack _). vm_compute. reflexivity.
Defined.

Lemma labels_preserved (wins : list window) (w : world) :
  labels_agree w ∧ labels_canonical w →
  labels_agree (scan_loop wins w).2 ∧ labels_canonical (scan_loop wins w).2.
Proof.
  apply (scan_loop_preserves (λ w', labels_agree w' ∧ labels_canonical w')).
  - intros level m a w0 _. unfold labels_agree, labels_canonical.
    by destruct (emit_gauges level m a w0) as (-> & -> & -> & ->).
  - intros d m w0 _. unfold labels_agree, labels_canonical.
    destruct (publish_measurement_gauges d m w0) as (-> & -> & -> & ->).
    rewrite !dom_insert_L. intros [(-> & -> & ->) Hc]. split; [done|].
    intros a n [Hin|Hin]%elem_of_union; [|by apply Hc].
    apply elem_of_singleton in Hin. unfold label in Hin.
    by injection Hin as -> ->.
Qed.

(** X18. In every run of the program the four gauges carry the same
    label pairs, and the name of each pair is the one the address
    determines: the friendly name of the table, or the address itself.
    So a device never shows up in one gauge without the others, nor under
    two names. *)
Theorem main_labels_consistent
    (metrics_port verbose quiet : Z) (wins : list window) :
  let w := (main metrics_port verbose quiet wins).2 in
  dom (gauge_battery w) = dom (gauge_rssi w) ∧
  dom (gauge_humidity w) = dom (gauge_rssi w) ∧
  dom (gauge_temperature w) = dom (gauge_rssi w) ∧
  ∀ a n : string,
    (a, n) ∈ dom (gauge_rssi w) →
    n = match DEVICE_NAME_MAP !! a with Some name => name | None => a end.
Proof.
  intros w.
  assert (H : labels_agree w ∧ labels_canonical w).
  { apply labels_preserved. unfold logging.debug.
    unfold labels_agree, labels_canonical.
    destruct (emit_gauges DEBUG
      ("Started Prometheus exporter on ':%s' "
       +:+ "scrapping Swichbot thermometers nearby")
      [AInt metrics_port] (configure_logging verbose quiet initial_world))
      as (-> & -> & -> & ->).
    simpl. split; [done|]. intros a n Hin. by rewrite dom_empty_L in Hin. }
  destruct H as [(H1 & H2 & H3) Hc].
  split; [exact H1|]. split; [exact H2|]. split; [exact H3|].
  intros a n Hin. rewrite (Hc a n Hin).
  by destruct (DEVICE_NAME_MAP !! a).
Qed.

Lemma samples_preserved (wins : list window) (w : world) :
  samples_in_range w → samples_in_range (scan_loop wins w).2.
Proof.
  apply (scan_loop_preserves samples_in_range).
  - intros level m a w0 _. unfold samples_in_range.
    by destruct (emit_gauges level m a w0) as (_ & -> & -> & ->).
  - intros d m w0 Hd. unfold samples_in_range.
    destruct (publish_measurement_gauges d m w0) as (_ & -> & -> & ->).
    destruct (parse_device_data_Ok d m Hd) as [s Hs].
    destruct (decode_Ok_ranges s m Hs) as (Hb & Hh & Ht).
    intros (H1 & H2 & H3). split; [|split].
    + intros k v [[_ <-]|[_ Hk]]%lookup_insert_Some; eauto.
    + intros k v [[_ <-]|[_ Hk]]%lookup_insert_Some; eauto.
    + intros k v [[_ <-]|[_ Hk]]%lookup_insert_Some;
        [exact Ht|by apply (H3 k)].
Qed.

(** X19. In every run of the program each sample of the battery and of
    the humidity gauge is an integer between 0 and 127, and each sample
    of the temperature gauge lies between -128.5 and 128.5. *)
Theorem main_samples_in_range
    (metrics_port verbose quiet : Z) (wins : list window)
    (k : string * string) (v : float) :
  let w := (main metrics_port verbose quiet wins).2 in
  (gauge_battery w !! k = Some v →
   ∃ z : Z, 0 ≤ z ≤ 127 ∧ v = float_of_int z) ∧
  (gauge_humidity w !! k = Some v →
   ∃ z : Z, 0 ≤ z ≤ 127 ∧ v = float_of_int z) ∧
  (gauge_temperature w !! k = Some v →
   PrimFloat.leb (-128.5) v = true ∧ PrimFloat.leb v 128.5 = true).
Proof.
  intros w.
  assert (H : samples_in_range w).
  { apply samples_preserved. unfold logging.debug, samples_in_range.
    destruct (emit_gauges DEBUG
      ("Started Prometheus exporter on ':%s' "
       +:+ "scrapping Swichbot thermometers nearby")
      [AInt metrics_port] (configure_logging verbose quiet initial_world))
      as (_ & -> & -> & ->).
    simpl. split; [|split]; intros k0 v0; by rewrite lookup_empty. }
  destruct H as (H1 & H2 & H3).
  split; [apply H1|]. split; [apply H2|apply H3].
Qed.

Lemma main_samples_in_range_witness :
  let good := mkScanEntry "ee:ed:06:15:e1:fc" (-71) true
                [(255, "Manufacturer", "5900eeed0615e1fc");
                 (7, "Complete 128b Services", SWITCHBOT_SERVICE_ID);
                 (22, "16b Service Data", "000d5400e4039abf")] in
  let wins := [mkWindow [(good, true, true)] None] in
  gauge_battery (main 8080 0 0 wins).2 !! ("ee:ed:06:15:e1:fc", "Terasse")
  = Some (float_of_int 100) ∧
  ∃ z : Z, 0 ≤ z ≤ 127 ∧ float_of_int 100 = float_of_int z.
Proof.
  intros good wins. split; [vm_compute; reflexivity|].
  apply (proj1 (main_samples_in_range 8080 0 0 wins
                  ("ee:ed:06:15:e1:fc", "Terasse") (float_of_int 100))).
  vm_compute. reflexivity.
Defined.
